(** * Vending machine purchase service

    A shallow embedding of [app/services/purchase_service.py]: the
    denomination validator, the change calculator and the purchase
    transaction, with the properties the specification states about them.

    Python integers are unbounded, so they are [Z]; [%] and [//] are floor
    modulo and floor division ([Z.modulo], [Z.div]) and raise
    [ZeroDivisionError] on a zero divisor.  Exceptions are values of an error
    monad; the database session is threaded through a state monad whose
    failures keep the state reached when the exception was raised. *)

From stdpp Require Import base decidable option numbers list sorting strings
  pretty gmap fin_maps.

Local Open Scope Z_scope.

(** ** Python values and exceptions *)

(** The arguments of a raised exception: [ValueError("insufficient_cash",
    item.price, cash_inserted)] carries a string and two integers. *)
Inductive pyval : Type :=
  | PyStr (s : string)
  | PyInt (z : Z).

Inductive exn : Type :=
  | ValueError (args : list pyval)
  | ZeroDivisionError
  | InvalidRequestError.

Inductive result (A : Type) : Type :=
  | Ok (a : A)
  | Raise (e : exn).
Arguments Ok {A} a.
Arguments Raise {A} e.

#[global] Instance result_ret : MRet result := λ A a, Ok a.
#[global] Instance result_bind : MBind result := λ A B f m,
  match m with
  | Ok a => f a
  | Raise e => Raise e
  end.

(** [a % b] and [a // b] on Python integers. *)
Definition py_mod (a b : Z) : result Z :=
  if bool_decide (b = 0) then Raise ZeroDivisionError else Ok (a `mod` b).

Definition py_floordiv (a b : Z) : result Z :=
  if bool_decide (b = 0) then Raise ZeroDivisionError else Ok (a `div` b).

(** [sorted(xs, reverse=True)] on a list of integers. *)
Definition sorted_reverse (xs : list Z) : list Z := merge_sort Z.ge xs.

(** [str(d)] for an integer [d]: its decimal numeral. *)
Definition str (d : Z) : string := pretty d.

(** ** Insertion-ordered dictionaries with string keys

    [result[k] = v] overwrites the value in place when the key is present and
    appends the pair otherwise, which is what a Python [dict] does. *)
Definition dict (V : Type) : Type := list (string * V).

Fixpoint dict_set {V} (m : dict V) (k : string) (v : V) : dict V :=
  match m with
  | [] => [(k, v)]
  | (k', v') :: m' =>
      if bool_decide (k' = k) then (k, v) :: m' else (k', v') :: dict_set m' k v
  end.

(** ** The denomination validator and the change calculator *)

Record Breakdown : Type := mkBreakdown {
  bd_change : Z;
  bd_denominations : dict Z
}.

Section Denominations.

(** [settings.SUPPORTED_DENOMINATIONS], supplied by the configuration. *)
Variable SUPPORTED_DENOMINATIONS : list Z.

(** The loop [for denom in denominations: remaining = remaining % denom]. *)
Fixpoint mod_loop (denominations : list Z) (remaining : Z) : result Z :=
  match denominations with
  | [] => Ok remaining
  | denom :: rest =>
      remaining' ← py_mod remaining denom;
      mod_loop rest remaining'
  end.

Definition _is_valid_denomination_amount (amount : Z) : result bool :=
  if bool_decide (amount ≤ 0) then Ok false
  else
    let denominations := sorted_reverse SUPPORTED_DENOMINATIONS in
    remaining ← mod_loop denominations amount;
    Ok (bool_decide (remaining = 0)).

Definition _can_make_change (change : Z) : result bool :=
  if bool_decide (0 < change) then _is_valid_denomination_amount change
  else Ok true.

(** The loop of [change_breakdown]; it returns the dictionary built so far
    together with the value of [remaining] when the loop is left. *)
Fixpoint breakdown_loop (denominations : list Z) (res : dict Z)
    (remaining : Z) : result (dict Z * Z) :=
  match denominations with
  | [] => Ok (res, remaining)
  | d :: rest =>
      if bool_decide (remaining ≤ 0) then Ok (res, remaining)
      else
        count ← py_floordiv remaining d;
        if bool_decide (0 < count)
        then breakdown_loop rest (dict_set res (str d) count)
               (remaining - count * d)
        else breakdown_loop rest res remaining
  end.

Definition change_breakdown (change : Z) : result Breakdown :=
  let denominations := sorted_reverse SUPPORTED_DENOMINATIONS in
  '(res, _) ← breakdown_loop denominations [] change;
  Ok (mkBreakdown change res).

End Denominations.

(** ** The persistence layer *)

(** Modelled from the spec: the [Item] and slot records of [app.models],
    which the persistence layer supplies: an item has a name, a price, a
    quantity and an optional linked slot; a slot has a mutable
    [current_item_count].  Rows are keyed by their id. *)
Record Item : Type := mkItem {
  name : string;
  price : Z;
  quantity : Z;
  slot_id : option string
}.

Record Slot : Type := mkSlot {
  current_item_count : Z
}.

Record Store : Type := mkStore {
  items : gmap string Item;
  slots : gmap string Slot
}.

(** A session holds the objects as the running request sees them
    ([working], uncommitted changes included) and the committed rows
    ([durable]). *)
Record Session : Type := mkSession {
  working : Store;
  durable : Store
}.

(** Computations over the session that may raise.  A raised exception
    leaves the session as it was at the [raise]. *)
Definition DB (A : Type) : Type := Session → result A * Session.

#[global] Instance DB_ret : MRet DB := λ A a s, (Ok a, s).
#[global] Instance DB_bind : MBind DB := λ A B f m s,
  match m s with
  | (Ok a, s') => f a s'
  | (Raise e, s') => (Raise e, s')
  end.

Definition raise {A} (e : exn) : DB A := λ s, (Raise e, s).

Definition lift {A} (r : result A) : DB A := λ s, (r, s).

(** [db.query(Item).filter(Item.id == item_id).first()] *)
Definition query_first (item_id : string) : DB (option Item) :=
  λ s, (Ok (items (working s) !! item_id), s).

(** [item.quantity = q] on the object loaded under [item_id]. *)
Definition set_quantity (item_id : string) (q : Z) : DB unit :=
  λ s,
    let w := working s in
    let upd (it : Item) := mkItem (name it) (price it) q (slot_id it) in
    (Ok tt, mkSession (mkStore (alter upd item_id (items w)) (slots w))
                      (durable s)).

(** [item.slot]: the related slot object, [None] when no slot is linked. *)
Definition item_slot (item : Item) : DB (option (string * Slot)) :=
  λ s,
    (Ok (sid ← slot_id item;
         sl ← slots (working s) !! sid;
         Some (sid, sl)), s).

(** [slot.current_item_count = c] on the slot object stored under [sid]. *)
Definition set_current_item_count (sid : string) (c : Z) : DB unit :=
  λ s,
    let w := working s in
    (Ok tt, mkSession (mkStore (items w) (alter (λ _, mkSlot c) sid (slots w)))
                      (durable s)).

(** [db.commit()]: the session's changes become the committed rows. *)
Definition commit : DB unit :=
  λ s, (Ok tt, mkSession (working s) (working s)).

(** [db.refresh(item)]: reload the object from its committed row. *)
Definition refresh (item_id : string) : DB Item :=
  λ s,
    match items (durable s) !! item_id with
    | Some it =>
        let w := working s in
        (Ok it, mkSession (mkStore (<[item_id := it]> (items w)) (slots w))
                          (durable s))
    | None => (Raise InvalidRequestError, s)
    end.

(** ** The purchase transaction *)

Record PurchaseResult : Type := mkPurchaseResult {
  r_item : string;
  r_price : Z;
  r_cash_inserted : Z;
  r_change_returned : Z;
  r_remaining_quantity : Z;
  r_message : string
}.

Definition invalid_denomination : exn :=
  ValueError [PyStr "invalid_denomination"].
Definition item_not_found : exn := ValueError [PyStr "item_not_found"].
Definition out_of_stock : exn := ValueError [PyStr "out_of_stock"].
Definition insufficient_cash (required given : Z) : exn :=
  ValueError [PyStr "insufficient_cash"; PyInt required; PyInt given].
Definition cannot_make_change : exn :=
  ValueError [PyStr "cannot_make_change"].

Section Purchase.

Variable SUPPORTED_DENOMINATIONS : list Z.

Definition purchase (item_id : string) (cash_inserted : Z)
    : DB PurchaseResult :=
  valid ← lift (_is_valid_denomination_amount SUPPORTED_DENOMINATIONS
                  cash_inserted);
  if negb valid then raise invalid_denomination
  else
    found ← query_first item_id;
    match found with
    | None => raise item_not_found
    | Some item =>
        if bool_decide (quantity item ≤ 0) then raise out_of_stock
        else if bool_decide (cash_inserted < price item)
        then raise (insufficient_cash (price item) cash_inserted)
        else
          let change := cash_inserted - price item in
          changeable ← lift (_can_make_change SUPPORTED_DENOMINATIONS
                               change);
          if negb changeable then raise cannot_make_change
          else
            set_quantity item_id (quantity item - 1);;
            linked ← item_slot item;
            match linked with
            | Some (sid, sl) =>
                set_current_item_count sid (current_item_count sl - 1)
            | None => mret tt
            end;;
            commit;;
            item' ← refresh item_id;
            mret (mkPurchaseResult (name item') (price item') cash_inserted
                    change (quantity item') "Purchase successful")
    end.

End Purchase.

(** ** Specification-level notions *)

(** Every denomination is a positive integer. *)
Definition positive_denominations (denoms : list Z) : Prop :=
  Forall (λ d, 0 < d) denoms.

(** The validator as the specification words it: the amount folded through
    [remaining mod denom] over the denominations in descending order. *)
Definition mod_chain (denoms : list Z) (amount : Z) : Z :=
  foldl (λ remaining denom, remaining `mod` denom) amount
        (sorted_reverse denoms).

Definition is_valid_spec (denoms : list Z) (amount : Z) : bool :=
  if bool_decide (amount ≤ 0) then false
  else bool_decide (mod_chain denoms amount = 0).

(** [coin_sum denoms n]: [n] is a sum of denomination values, each used any
    number of times; [0] is the empty sum. *)
Inductive coin_sum (denoms : list Z) : Z → Prop :=
  | coin_sum_empty : coin_sum denoms 0
  | coin_sum_add d n : d ∈ denoms → coin_sum denoms n → coin_sum denoms (d + n).

(** The change calculator as the specification words it: from the largest
    denomination to the smallest take [count = remaining // denom], record
    the pair when [count > 0], subtract [count * denom], and stop once
    nothing remains. *)
Fixpoint greedy (denoms_desc : list Z) (remaining : Z) : list (Z * Z) :=
  match denoms_desc with
  | [] => []
  | denom :: rest =>
      if bool_decide (remaining = 0) then []
      else
        let count := remaining `div` denom in
        if bool_decide (0 < count)
        then (denom, count) :: greedy rest (remaining - count * denom)
        else greedy rest remaining
  end.

(** The dictionary holding the pairs [(d, count)] under the keys [str(d)]. *)
Definition keyed (pairs : list (Z * Z)) : dict Z :=
  (λ p, (str p.1, p.2)) <$> pairs.

(** The amount a list of [(denomination, count)] pairs adds up to. *)
Definition pairs_total (pairs : list (Z * Z)) : Z :=
  foldr (λ p acc, p.1 * p.2 + acc) 0 pairs.

(** The item and the slot after one unit has been sold. *)
Definition sell (it : Item) : Item :=
  mkItem (name it) (price it) (quantity it - 1) (slot_id it).

Definition take_from_slot (sl : Slot) : Slot :=
  mkSlot (current_item_count sl - 1).

Definition store_after_purchase (item_id : string) (item : Item) (w : Store)
    : Store :=
  mkStore (<[item_id := sell item]> (items w))
          (match slot_id item with
           | Some sid => alter take_from_slot sid (slots w)
           | None => slots w
           end).

(** What [purchase] returns on success. *)
Definition receipt (item : Item) (cash_inserted : Z) : PurchaseResult :=
  mkPurchaseResult (name item) (price item) cash_inserted
    (cash_inserted - price item) (quantity item - 1) "Purchase successful".

(** A call passes the first three checks of [purchase]: the cash is a valid
    denomination amount, the item exists and is in stock, and the cash covers
    the price. *)
Definition passes_steps_1_to_3 (denoms : list Z) (item_id : string)
    (cash : Z) (s : Session) (item : Item) : Prop :=
  _is_valid_denomination_amount denoms cash = Ok true ∧
  items (working s) !! item_id = Some item ∧
  0 < quantity item ∧
  price item ≤ cash.

(** No item of the store has a negative quantity. *)
Definition stock_nonnegative (w : Store) : Prop :=
  map_Forall (λ _ it, 0 ≤ quantity it) (items w).

(** A session with one item in one slot, used to run the examples. *)
Definition demo_store (p q : Z) : Store :=
  mkStore {[ "cola" := mkItem "Cola" p q (Some "A1") ]}
          {[ "A1" := mkSlot q ]}.

Definition demo_session (p q : Z) : Session :=
  mkSession (demo_store p q) (demo_store p q).

(** A session with two items that share one slot. *)
Definition shared_slot_session : Session :=
  let st := mkStore (<["water" := mkItem "Water" 5 3 (Some "A1")]>
                       {[ "cola" := mkItem "Cola" 10 2 (Some "A1") ]})
                    {[ "A1" := mkSlot 5 ]} in
  mkSession st st.

(** * Properties *)

(** ** Sorting *)

#[local] Instance Z_ge_total : Total Z.ge.
Proof. intros x y. lia. Qed.

#[local] Instance Z_ge_trans : Transitive Z.ge.
Proof. intros x y z. lia. Qed.

Lemma sorted_reverse_perm (xs : list Z) : sorted_reverse xs ≡ₚ xs.
Proof. apply merge_sort_Permutation. Qed.

Lemma sorted_reverse_descending (xs : list Z) :
  StronglySorted Z.ge (sorted_reverse xs).
Proof. apply StronglySorted_merge_sort; apply _. Qed.

Lemma sorted_reverse_positive (xs : list Z) :
  positive_denominations xs → positive_denominations (sorted_reverse xs).
Proof.
  unfold positive_denominations. intros H.
  by rewrite sorted_reverse_perm.
Qed.

Lemma sorted_reverse_elem_of (xs : list Z) (d : Z) :
  d ∈ sorted_reverse xs ↔ d ∈ xs.
Proof. by rewrite sorted_reverse_perm. Qed.

(** ** The modulo chain *)

Lemma py_mod_pos (a b : Z) : 0 < b → py_mod a b = Ok (a `mod` b).
Proof. intros Hb. unfold py_mod. rewrite bool_decide_eq_false_2; [done | lia]. Qed.

Lemma py_floordiv_pos (a b : Z) : 0 < b → py_floordiv a b = Ok (a `div` b).
Proof.
  intros Hb. unfold py_floordiv. rewrite bool_decide_eq_false_2; [done | lia].
Qed.

Lemma mod_loop_pos (ds : list Z) (r : Z) :
  positive_denominations ds →
  mod_loop ds r = Ok (foldl (λ remaining denom, remaining `mod` denom) r ds).
Proof.
  intros Hpos. revert r.
  induction Hpos as [|d ds Hd _ IH]; intros r; simpl; [done |].
  rewrite py_mod_pos by done. simpl. apply IH.
Qed.

(** The only exception the validator can raise is a division by zero. *)
Lemma mod_loop_raise (ds : list Z) (r : Z) (e : exn) :
  mod_loop ds r = Raise e → e = ZeroDivisionError.
Proof.
  revert r. induction ds as [|d ds IH]; intros r; simpl; [done |].
  unfold py_mod. case_bool_decide; simpl; [congruence | apply IH].
Qed.

Lemma is_valid_raise (denoms : list Z) (amount : Z) (e : exn) :
  _is_valid_denomination_amount denoms amount = Raise e →
  e = ZeroDivisionError.
Proof.
  unfold _is_valid_denomination_amount. case_bool_decide; [done |].
  destruct (mod_loop (sorted_reverse denoms) amount) eqn:Hloop; simpl;
    [done |].
  intros ?; simplify_eq. by eapply mod_loop_raise.
Qed.

Lemma is_valid_nonpositive (denoms : list Z) (amount : Z) :
  amount ≤ 0 → _is_valid_denomination_amount denoms amount = Ok false.
Proof.
  intros Hle. unfold _is_valid_denomination_amount.
  by rewrite bool_decide_eq_true_2.
Qed.

Lemma is_valid_positive (denoms : list Z) (amount : Z) :
  positive_denominations denoms → 0 < amount →
  _is_valid_denomination_amount denoms amount =
  Ok (bool_decide (mod_chain denoms amount = 0)).
Proof.
  intros Hpos Hamount. unfold _is_valid_denomination_amount.
  rewrite bool_decide_eq_false_2 by lia.
  rewrite mod_loop_pos by by apply sorted_reverse_positive.
  done.
Qed.

Lemma is_valid_total (denoms : list Z) (amount : Z) :
  positive_denominations denoms →
  _is_valid_denomination_amount denoms amount = Ok (is_valid_spec denoms amount).
Proof.
  intros Hpos. unfold is_valid_spec. case_bool_decide.
  - by apply is_valid_nonpositive.
  - apply is_valid_positive; [done | lia].
Qed.

(** C1: for positive denominations the validator returns false on every
    amount ≤ 0 and, on an amount > 0, returns true exactly when the chain
    [remaining = remaining mod denom] over the denominations sorted in
    descending order ends at 0; with the set {1,2,5,10}, 18 is valid and 0
    and -5 are not. *)
Theorem is_valid_denomination_amount_mod_chain (denoms : list Z) (amount : Z) :
  positive_denominations denoms →
  (StronglySorted Z.ge (sorted_reverse denoms) ∧
   sorted_reverse denoms ≡ₚ denoms) ∧
  (amount ≤ 0 → _is_valid_denomination_amount denoms amount = Ok false) ∧
  (0 < amount →
   ∃ b, _is_valid_denomination_amount denoms amount = Ok b ∧
        (b = true ↔
         foldl (λ remaining denom, remaining `mod` denom) amount
               (sorted_reverse denoms) = 0)) ∧
  _is_valid_denomination_amount denoms amount =
    Ok (is_valid_spec denoms amount) ∧
  _is_valid_denomination_amount [1; 2; 5; 10] 18 = Ok true ∧
  _is_valid_denomination_amount [1; 2; 5; 10] 0 = Ok false ∧
  _is_valid_denomination_amount [1; 2; 5; 10] (-5) = Ok false.
Proof.
  intros Hpos. split_and!.
  - apply sorted_reverse_descending.
  - apply sorted_reverse_perm.
  - apply is_valid_nonpositive.
  - intros Hamount. eexists. split; [by apply is_valid_positive |].
    apply bool_decide_eq_true.
  - by apply is_valid_total.
  - by vm_compute.
  - by vm_compute.
  - by vm_compute.
Qed.

Lemma is_valid_denomination_amount_mod_chain_witness :
  positive_denominations [1; 2; 5; 10] ∧
  _is_valid_denomination_amount [1; 2; 5; 10] 7 =
    Ok (is_valid_spec [1; 2; 5; 10] 7).
Proof.
  assert (Hpos : positive_denominations [1; 2; 5; 10]).
  { unfold positive_denominations. repeat constructor. }
  split; [exact Hpos |].
  apply (is_valid_denomination_amount_mod_chain [1; 2; 5; 10] 7 Hpos).
Defined.

(** ** Running a purchase *)

Lemma alter_lookup_insert {A} (f : A → A) (m : gmap string A) i x :
  m !! i = Some x → alter f i m = <[i := f x]> m.
Proof.
  intros Hx. apply map_eq. intros j.
  rewrite lookup_alter, lookup_insert. case_decide; subst; [by rewrite Hx | done].
Qed.

(** [purchase] written out check by check. *)
Lemma purchase_run (denoms : list Z) (item_id : string) (cash : Z)
    (s : Session) :
  purchase denoms item_id cash s =
  match _is_valid_denomination_amount denoms cash with
  | Raise e => (Raise e, s)
  | Ok false => (Raise invalid_denomination, s)
  | Ok true =>
      match items (working s) !! item_id with
      | None => (Raise item_not_found, s)
      | Some item =>
          if bool_decide (quantity item ≤ 0) then (Raise out_of_stock, s)
          else if bool_decide (cash < price item)
          then (Raise (insufficient_cash (price item) cash), s)
          else
            match _can_make_change denoms (cash - price item) with
            | Raise e => (Raise e, s)
            | Ok false => (Raise cannot_make_change, s)
            | Ok true =>
                let w := store_after_purchase item_id item (working s) in
                (Ok (receipt item cash), mkSession w w)
            end
      end
  end.
Proof.
  unfold purchase, mbind, DB_bind, lift, raise, query_first.
  destruct (_is_valid_denomination_amount denoms cash) as [[|]|e]; simpl; try done.
  destruct (items (working s) !! item_id) as [item|] eqn:Hitem; simpl; [|done].
  case_bool_decide; [done |]. case_bool_decide; [done |].
  destruct (_can_make_change denoms (cash - price item)) as [[|]|e]; simpl;
    try done.
  unfold refresh, commit, item_slot, set_quantity, set_current_item_count,
    store_after_purchase, receipt, mret, DB_ret; simpl.
  destruct s as [[its sls] dur]; simpl in *.
  destruct (slot_id item) as [sid|] eqn:Hsid; simpl.
  - destruct (sls !! sid) as [sl|] eqn:Hsl; simpl.
    + rewrite lookup_alter_eq, Hitem; simpl.
      rewrite insert_alter_eq.
      rewrite (alter_lookup_insert _ its item_id item Hitem).
      rewrite (alter_ext _ take_from_slot); [done |].
      intros x Hx. rewrite Hsl in Hx. by simplify_eq.
    + rewrite lookup_alter_eq, Hitem; simpl.
      rewrite insert_alter_eq.
      rewrite (alter_lookup_insert _ its item_id item Hitem).
      by rewrite (alter_id' take_from_slot).
  - rewrite lookup_alter_eq, Hitem; simpl.
    rewrite insert_alter_eq.
    by rewrite (alter_lookup_insert _ its item_id item Hitem).
Qed.

Lemma can_make_change_nonpositive (denoms : list Z) (change : Z) :
  change ≤ 0 → _can_make_change denoms change = Ok true.
Proof.
  intros Hle. unfold _can_make_change.
  rewrite bool_decide_eq_false_2; [done | lia].
Qed.

Lemma can_make_change_positive (denoms : list Z) (change : Z) :
  0 < change →
  _can_make_change denoms change = _is_valid_denomination_amount denoms change.
Proof.
  intros Hlt. unfold _can_make_change. by rewrite bool_decide_eq_true_2.
Qed.

Lemma can_make_change_raise (denoms : list Z) (change : Z) (e : exn) :
  _can_make_change denoms change = Raise e → e = ZeroDivisionError.
Proof.
  unfold _can_make_change. case_bool_decide; [apply is_valid_raise | done].
Qed.

Lemma can_make_change_total (denoms : list Z) (change : Z) :
  positive_denominations denoms → ∃ b, _can_make_change denoms change = Ok b.
Proof.
  intros Hpos. destruct (decide (0 < change)) as [Hlt|Hle].
  - rewrite can_make_change_positive by done. rewrite is_valid_total by done.
    eauto.
  - rewrite can_make_change_nonpositive by lia. eauto.
Qed.

Lemma can_make_change_false (denoms : list Z) (change : Z) :
  _can_make_change denoms change = Ok false ↔
  0 < change ∧ _is_valid_denomination_amount denoms change = Ok false.
Proof.
  destruct (decide (0 < change)) as [Hlt|Hle].
  - rewrite can_make_change_positive by done.
    split; [by split | by intros [_ ?]].
  - rewrite can_make_change_nonpositive by lia.
    split; [done | intros [? _]; lia].
Qed.

(** Peel the checks off a purchase, one case per branch of the source. *)
Ltac purchase_cases :=
  rewrite purchase_run;
  repeat match goal with
  | |- context [match ?r with Ok _ => _ | Raise _ => _ end] =>
      let H := fresh "Hrun" in destruct r as [[|]|?] eqn:H
  | |- context [match items ?w !! ?i with Some _ => _ | None => _ end] =>
      let H := fresh "Hfound" in destruct (items w !! i) eqn:H
  | |- context [bool_decide ?P] => destruct (bool_decide_reflect P)
  end; simpl.

Lemma purchase_success_inv (denoms : list Z) (item_id : string) (cash : Z)
    (s : Session) (r : PurchaseResult) :
  (purchase denoms item_id cash s).1 = Ok r →
  ∃ item,
    passes_steps_1_to_3 denoms item_id cash s item ∧
    _can_make_change denoms (cash - price item) = Ok true ∧
    r = receipt item cash ∧
    (purchase denoms item_id cash s).2 =
      mkSession (store_after_purchase item_id item (working s))
                (store_after_purchase item_id item (working s)).
Proof.
  unfold passes_steps_1_to_3.
  purchase_cases; intros Hr; simplify_eq.
  eexists. split_and!; try done; lia.
Qed.

Lemma purchase_success (denoms : list Z) (item_id : string) (cash : Z)
    (s : Session) (item : Item) :
  passes_steps_1_to_3 denoms item_id cash s item →
  _can_make_change denoms (cash - price item) = Ok true →
  purchase denoms item_id cash s =
  (Ok (receipt item cash),
   mkSession (store_after_purchase item_id item (working s))
             (store_after_purchase item_id item (working s))).
Proof.
  intros (Hvalid & Hitem & Hq & Hp) Hchange.
  rewrite purchase_run, Hvalid, Hitem, Hchange.
  repeat case_bool_decide; [lia.. | done].
Qed.

Lemma purchase_failure_state (denoms : list Z) (item_id : string) (cash : Z)
    (s : Session) (e : exn) :
  (purchase denoms item_id cash s).1 = Raise e →
  (purchase denoms item_id cash s).2 = s.
Proof. by purchase_cases. Qed.

Lemma demo_positive : positive_denominations [1; 2; 5; 10].
Proof. unfold positive_denominations. repeat constructor. Qed.

(** ** The change check (C2, C9) *)

(** C2 as stated fails: with denominations {1,2,5,10} and an item priced 10,
    paying exactly 10 passes the first three checks, the validator rejects
    the change 0, and yet [cannot_make_change] is not raised. *)
Lemma cannot_make_change_iff_validator_fails_counterexample :
  passes_steps_1_to_3 [1; 2; 5; 10] "cola" 10 (demo_session 10 1)
    (mkItem "Cola" 10 1 (Some "A1")) ∧
  ¬ ((purchase [1; 2; 5; 10] "cola" 10 (demo_session 10 1)).1
       = Raise cannot_make_change ↔
     _is_valid_denomination_amount [1; 2; 5; 10] (10 - 10) = Ok false).
Proof.
  split.
  - unfold passes_steps_1_to_3. split_and!; [by vm_compute | by vm_compute | | ];
      simpl; lia.
  - intros [_ Hraise].
    assert (Hrej : _is_valid_denomination_amount [1; 2; 5; 10] (10 - 10)
                   = Ok false) by by vm_compute.
    specialize (Hraise Hrej). vm_compute in Hraise. discriminate Hraise.
Qed.

(** C2 (amended): a purchase that passes the first three checks raises
    [cannot_make_change] exactly when the change [cash - price] is positive
    and fails the validator, that is, exactly when [_can_make_change]
    answers false. *)
Theorem cannot_make_change_iff_positive_change_invalid (denoms : list Z)
    (item_id : string) (cash : Z) (s : Session) (item : Item) :
  passes_steps_1_to_3 denoms item_id cash s item →
  ((purchase denoms item_id cash s).1 = Raise cannot_make_change ↔
   0 < cash - price item ∧
   _is_valid_denomination_amount denoms (cash - price item) = Ok false) ∧
  ((purchase denoms item_id cash s).1 = Raise cannot_make_change ↔
   _can_make_change denoms (cash - price item) = Ok false).
Proof.
  intros (Hvalid & Hitem & Hq & Hp).
  rewrite <- can_make_change_false.
  assert ((purchase denoms item_id cash s).1 = Raise cannot_make_change ↔
          _can_make_change denoms (cash - price item) = Ok false) as Hiff.
  { rewrite purchase_run, Hvalid, Hitem.
    repeat case_bool_decide; try lia.
    destruct (_can_make_change denoms (cash - price item)) as [[|]|e] eqn:Hc;
      simpl; split; intros Heq; try done; simplify_eq.
    by apply can_make_change_raise in Hc. }
  done.
Qed.

Lemma cannot_make_change_iff_positive_change_invalid_witness :
  passes_steps_1_to_3 [5; 10] "cola" 10 (demo_session 3 1)
    (mkItem "Cola" 3 1 (Some "A1")) ∧
  (purchase [5; 10] "cola" 10 (demo_session 3 1)).1 = Raise cannot_make_change.
Proof.
  assert (Hpass : passes_steps_1_to_3 [5; 10] "cola" 10 (demo_session 3 1)
                    (mkItem "Cola" 3 1 (Some "A1"))).
  { unfold passes_steps_1_to_3.
    split_and!; [by vm_compute | by vm_compute | simpl; lia | simpl; lia]. }
  split; [exact Hpass |].
  apply (proj2 (cannot_make_change_iff_positive_change_invalid
                  [5; 10] "cola" 10 (demo_session 3 1) _ Hpass)).
  by vm_compute.
Defined.

(** C9: [_can_make_change] answers true for every change ≤ 0, so a purchase
    paying exactly the price of the item never raises [cannot_make_change]
    (and succeeds with change 0 when the cash is valid and the item is in
    stock), although the validator itself rejects the amount 0. *)
Theorem exact_payment_accepted (denoms : list Z) (item_id : string)
    (s : Session) (item : Item) :
  items (working s) !! item_id = Some item →
  (∀ change, change ≤ 0 → _can_make_change denoms change = Ok true) ∧
  _is_valid_denomination_amount denoms 0 = Ok false ∧
  (purchase denoms item_id (price item) s).1 ≠ Raise cannot_make_change ∧
  (_is_valid_denomination_amount denoms (price item) = Ok true →
   0 < quantity item →
   (purchase denoms item_id (price item) s).1 = Ok (receipt item (price item)) ∧
   r_change_returned (receipt item (price item)) = 0).
Proof.
  intros Hitem. split_and!.
  - intros change. apply can_make_change_nonpositive.
  - by apply is_valid_nonpositive.
  - rewrite purchase_run, Hitem.
    rewrite Z.sub_diag, can_make_change_nonpositive by done.
    destruct (_is_valid_denomination_amount denoms (price item))
      as [[|]|e] eqn:Hvalid;
      repeat case_bool_decide; simpl; try done.
    apply is_valid_raise in Hvalid. by subst e.
  - intros Hvalid Hq.
    rewrite (purchase_success denoms item_id (price item) s item).
    + simpl. split; [done | lia].
    + unfold passes_steps_1_to_3. split_and!; [done | done | lia | lia].
    + rewrite Z.sub_diag. by apply can_make_change_nonpositive.
Qed.

Lemma exact_payment_accepted_witness :
  (purchase [1; 2; 5; 10] "cola" 10 (demo_session 10 1)).1
    ≠ Raise cannot_make_change.
Proof.
  assert (Hitem : items (working (demo_session 10 1)) !! "cola"
                  = Some (mkItem "Cola" 10 1 (Some "A1"))) by by vm_compute.
  apply (exact_payment_accepted [1; 2; 5; 10] "cola" (demo_session 10 1) _ Hitem).
Defined.

(** ** Errors and atomicity (C6, C7) *)

(** C6: [purchase] reports its failures as five distinct named conditions,
    checked in this order: the denomination validity of the cash, the
    existence of the item, its quantity ≤ 0, cash below the price, and the
    validity of the change; [insufficient_cash] carries the price and the
    cash given; with positive denominations no other exception is raised. *)
Theorem purchase_error_precedence (denoms : list Z) (item_id : string)
    (cash : Z) (s : Session) :
  positive_denominations denoms →
  (∀ p c, NoDup [ValueError [PyStr "invalid_denomination"];
                 ValueError [PyStr "item_not_found"];
                 ValueError [PyStr "out_of_stock"];
                 ValueError [PyStr "insufficient_cash"; PyInt p; PyInt c];
                 ValueError [PyStr "cannot_make_change"]]) ∧
  (_is_valid_denomination_amount denoms cash = Ok false →
   (purchase denoms item_id cash s).1
     = Raise (ValueError [PyStr "invalid_denomination"])) ∧
  (_is_valid_denomination_amount denoms cash = Ok true →
   (items (working s) !! item_id = None →
    (purchase denoms item_id cash s).1
      = Raise (ValueError [PyStr "item_not_found"])) ∧
   (∀ item, items (working s) !! item_id = Some item →
      (quantity item ≤ 0 →
       (purchase denoms item_id cash s).1
         = Raise (ValueError [PyStr "out_of_stock"])) ∧
      (0 < quantity item → cash < price item →
       (purchase denoms item_id cash s).1
         = Raise (ValueError [PyStr "insufficient_cash";
                              PyInt (price item); PyInt cash])) ∧
      (0 < quantity item → price item ≤ cash →
       _can_make_change denoms (cash - price item) = Ok false →
       (purchase denoms item_id cash s).1
         = Raise (ValueError [PyStr "cannot_make_change"])))) ∧
  (∀ e, (purchase denoms item_id cash s).1 = Raise e →
     e = invalid_denomination ∨ e = item_not_found ∨ e = out_of_stock ∨
     (∃ item, items (working s) !! item_id = Some item ∧
              e = insufficient_cash (price item) cash) ∨
     e = cannot_make_change).
Proof.
  intros Hpos. split_and!.
  - intros p c.
    repeat (apply NoDup_cons; split;
            [rewrite ?not_elem_of_cons; split_and?; try discriminate;
             apply not_elem_of_nil |]).
    apply NoDup_nil_2.
  - intros Hvalid. by rewrite purchase_run, Hvalid.
  - intros Hvalid. split.
    + intros Hitem. by rewrite purchase_run, Hvalid, Hitem.
    + intros item Hitem. split_and!.
      * intros Hq. rewrite purchase_run, Hvalid, Hitem.
        by rewrite bool_decide_eq_true_2.
      * intros Hq Hp. rewrite purchase_run, Hvalid, Hitem.
        repeat case_bool_decide; try lia. done.
      * intros Hq Hp Hchange. rewrite purchase_run, Hvalid, Hitem, Hchange.
        repeat case_bool_decide; try lia. done.
  - intros e. rewrite purchase_run.
    rewrite (is_valid_total denoms cash Hpos).
    destruct (is_valid_spec denoms cash); [| naive_solver].
    destruct (items (working s) !! item_id) as [item|]; [| naive_solver].
    repeat case_bool_decide; try naive_solver.
    destruct (can_make_change_total denoms (cash - price item) Hpos)
      as [[|] ->]; naive_solver.
Qed.

Lemma purchase_error_precedence_witness :
  positive_denominations [1; 2; 5; 10] ∧
  (purchase [1; 2; 5; 10] "cola" 5 (demo_session 10 1)).1
    = Raise (ValueError [PyStr "insufficient_cash"; PyInt 10; PyInt 5]).
Proof.
  split; [exact demo_positive |].
  pose proof (purchase_error_precedence [1; 2; 5; 10] "cola" 5
                (demo_session 10 1) demo_positive) as (_ & _ & Hcases & _).
  assert (Hvalid : _is_valid_denomination_amount [1; 2; 5; 10] 5 = Ok true)
    by (vm_compute; reflexivity).
  destruct (Hcases Hvalid) as [_ Hitem].
  assert (Hfound : items (working (demo_session 10 1)) !! "cola"
                   = Some (mkItem "Cola" 10 1 (Some "A1")))
    by (vm_compute; reflexivity).
  destruct (Hitem _ Hfound) as (_ & Hcash & _).
  apply Hcash; simpl; lia.
Defined.

(** C7: a purchase that raises changes nothing: the session, and with it the
    item's quantity and the slot's [current_item_count], is the one it
    started from; a purchase of an item whose quantity is 0 raises and
    changes nothing, the exception being [out_of_stock] once the cash has
    passed the denomination check; and a purchase that returns has
    passed every check and made both decrements, in the working objects and
    in the committed rows alike. *)
Theorem purchase_atomic_on_failure (denoms : list Z) (item_id : string)
    (cash : Z) (s : Session) :
  (∀ e, (purchase denoms item_id cash s).1 = Raise e →
        (purchase denoms item_id cash s).2 = s) ∧
  (∀ item, items (working s) !! item_id = Some item →
           quantity item = 0 →
           (∃ e, purchase denoms item_id cash s = (Raise e, s)) ∧
           (_is_valid_denomination_amount denoms cash = Ok true →
            purchase denoms item_id cash s = (Raise out_of_stock, s))) ∧
  (∀ r, (purchase denoms item_id cash s).1 = Ok r →
        ∃ item,
          passes_steps_1_to_3 denoms item_id cash s item ∧
          _can_make_change denoms (cash - price item) = Ok true ∧
          working (purchase denoms item_id cash s).2
            = store_after_purchase item_id item (working s) ∧
          durable (purchase denoms item_id cash s).2
            = store_after_purchase item_id item (working s)).
Proof.
  split_and!.
  - intros e. apply purchase_failure_state.
  - intros item Hitem Hq. rewrite purchase_run, Hitem.
    rewrite bool_decide_eq_true_2 by lia.
    split; [| by intros ->].
    destruct (_is_valid_denomination_amount denoms cash) as [[|]|e]; eauto.
  - intros r Hr.
    destruct (purchase_success_inv _ _ _ _ _ Hr) as (item & ? & ? & _ & ->).
    by exists item.
Qed.

Lemma purchase_atomic_on_failure_witness :
  purchase [1; 2; 5; 10] "cola" 15 (demo_session 10 0)
    = (Raise out_of_stock, demo_session 10 0).
Proof.
  refine (proj2 (proj1 (proj2 (purchase_atomic_on_failure [1; 2; 5; 10]
                                 "cola" 15 (demo_session 10 0)))
                   (mkItem "Cola" 10 0 (Some "A1")) _ _) _).
  - vm_compute; reflexivity.
  - reflexivity.
  - vm_compute; reflexivity.
Defined.

(** ** A successful purchase (C8, C3) *)

(** C8: after a successful purchase the item's quantity is one less, the
    linked slot's [current_item_count], when there is a slot, is one less,
    nothing else has changed, and the changes are committed; the record
    returned holds the item's name, the price, the cash inserted, the change
    [cash - price], the quantity after the decrement and the message
    "Purchase successful".  With price 10, quantity 1 and 15 inserted the
    change is 5 and the remaining quantity 0. *)
Theorem purchase_success_effect (denoms : list Z) (item_id : string)
    (cash : Z) (s : Session) (r : PurchaseResult) :
  (purchase denoms item_id cash s).1 = Ok r →
  (∃ item,
     items (working s) !! item_id = Some item ∧
     items (working (purchase denoms item_id cash s).2) !! item_id
       = Some (mkItem (name item) (price item) (quantity item - 1)
                 (slot_id item)) ∧
     (∀ j, j ≠ item_id →
           items (working (purchase denoms item_id cash s).2) !! j
             = items (working s) !! j) ∧
     (∀ sid sl, slot_id item = Some sid →
                slots (working s) !! sid = Some sl →
                slots (working (purchase denoms item_id cash s).2) !! sid
                  = Some (mkSlot (current_item_count sl - 1))) ∧
     (∀ sid, slot_id item ≠ Some sid →
             slots (working (purchase denoms item_id cash s).2) !! sid
               = slots (working s) !! sid) ∧
     durable (purchase denoms item_id cash s).2
       = working (purchase denoms item_id cash s).2 ∧
     r = mkPurchaseResult (name item) (price item) cash (cash - price item)
           (quantity item - 1) "Purchase successful" ∧
     (quantity <$> items (working (purchase denoms item_id cash s).2) !! item_id)
       = Some (r_remaining_quantity r)) ∧
  (purchase [1; 2; 5; 10] "cola" 15 (demo_session 10 1)).1
    = Ok (mkPurchaseResult "Cola" 10 15 5 0 "Purchase successful").
Proof.
  intros Hr. split; [| by vm_compute].
  destruct (purchase_success_inv _ _ _ _ _ Hr)
    as (item & (_ & Hitem & _ & _) & _ & -> & ->).
  exists item. simpl. split_and!.
  - done.
  - apply lookup_insert_eq.
  - intros j Hj. by apply lookup_insert_ne.
  - intros sid sl -> Hsl. by rewrite lookup_alter_eq, Hsl.
  - intros sid Hsid. destruct (slot_id item) as [sid'|]; [| done].
    apply lookup_alter_ne. congruence.
  - done.
  - done.
  - by rewrite lookup_insert_eq.
Qed.

Lemma purchase_success_effect_witness :
  (purchase [1; 2; 5; 10] "cola" 15 (demo_session 10 1)).1
    = Ok (mkPurchaseResult "Cola" 10 15 5 0 "Purchase successful").
Proof.
  refine (proj2 (purchase_success_effect [1; 2; 5; 10] "cola" 15
                   (demo_session 10 1)
                   (mkPurchaseResult "Cola" 10 15 5 0 "Purchase successful")
                   _)).
  vm_compute; reflexivity.
Defined.

(** Representable amounts are closed under adding a multiple of a
    denomination. *)
Lemma coin_sum_add_multiple (denoms : list Z) (d n : Z) (q : Z) :
  d ∈ denoms → 0 ≤ q → coin_sum denoms n → coin_sum denoms (q * d + n).
Proof.
  intros Hd Hq Hn. revert q Hq.
  apply natlike_ind.
  - by rewrite Z.mul_0_l, Z.add_0_l.
  - intros q Hq IH.
    replace (Z.succ q * d + n) with (d + (q * d + n)) by lia.
    by constructor.
Qed.

(** An amount the modulo chain reduces to a representable amount is itself
    representable. *)
Lemma mod_loop_coin_sum (denoms ds : list Z) (r r' : Z) :
  ds ⊆ denoms → positive_denominations ds → 0 ≤ r →
  mod_loop ds r = Ok r' → coin_sum denoms r' → coin_sum denoms r.
Proof.
  intros Hsub Hpos. revert r Hsub.
  induction Hpos as [|d ds Hd _ IH]; intros r Hsub Hr; simpl.
  - intros ?; by simplify_eq.
  - rewrite py_mod_pos by done. simpl. intros Hloop Hsum.
    rewrite (Z.div_mod r d) by lia.
    rewrite (Z.mul_comm d).
    apply coin_sum_add_multiple.
    + apply Hsub. by left.
    + apply Z.div_pos; lia.
    + apply (IH (r `mod` d)); [set_solver | | done..].
      apply Z.mod_pos_bound. lia.
Qed.

Lemma is_valid_coin_sum (denoms : list Z) (amount : Z) :
  positive_denominations denoms →
  _is_valid_denomination_amount denoms amount = Ok true →
  coin_sum denoms amount.
Proof.
  intros Hpos. unfold _is_valid_denomination_amount.
  case_bool_decide; [done |].
  destruct (mod_loop (sorted_reverse denoms) amount) as [r'|e] eqn:Hloop;
    simpl; [| done].
  case_bool_decide; [| done]. intros _. subst r'.
  eapply mod_loop_coin_sum; [| | | exact Hloop | constructor].
  - intros d. apply sorted_reverse_elem_of.
  - by apply sorted_reverse_positive.
  - lia.
Qed.

(** C3: with positive denominations, in every purchase that succeeds the
    cash inserted and the change returned are sums of denomination values
    with repetition (the change 0 being the empty sum). *)
Theorem purchase_amounts_representable (denoms : list Z) (item_id : string)
    (cash : Z) (s : Session) (r : PurchaseResult) :
  positive_denominations denoms →
  (purchase denoms item_id cash s).1 = Ok r →
  coin_sum denoms cash ∧
  coin_sum denoms (r_change_returned r) ∧
  (∃ item, items (working s) !! item_id = Some item ∧
           r_change_returned r = cash - price item).
Proof.
  intros Hpos Hr.
  destruct (purchase_success_inv _ _ _ _ _ Hr)
    as (item & (Hvalid & Hitem & _ & Hp) & Hchange & -> & _).
  simpl. split_and!.
  - by apply is_valid_coin_sum.
  - destruct (decide (0 < cash - price item)) as [Hlt|Hle].
    + rewrite can_make_change_positive in Hchange by done.
      by apply is_valid_coin_sum.
    + replace (cash - price item) with 0 by lia. constructor.
  - by exists item.
Qed.

Lemma purchase_amounts_representable_witness :
  coin_sum [1; 2; 5; 10] 15 ∧ coin_sum [1; 2; 5; 10] 5.
Proof.
  destruct (purchase_amounts_representable [1; 2; 5; 10] "cola" 15
              (demo_session 10 1)
              (mkPurchaseResult "Cola" 10 15 5 0 "Purchase successful")
              demo_positive) as (Hcash & Hchange & _).
  - vm_compute; reflexivity.
  - split; [exact Hcash | exact Hchange].
Defined.

(** ** The change calculator (C4, C5, C10) *)

Lemma keyed_app (ps qs : list (Z * Z)) : keyed (ps ++ qs) = keyed ps ++ keyed qs.
Proof. unfold keyed. apply fmap_app. Qed.

Lemma keyed_inj (ps qs : list (Z * Z)) : keyed ps = keyed qs → ps = qs.
Proof.
  revert qs. induction ps as [|[d c] ps IH]; intros [|[d' c'] qs] Heq;
    simplify_eq/=; [done |].
  f_equal. by apply IH.
Qed.

(** Writing under a key that is not there yet appends the pair. *)
Lemma dict_set_fresh (acc : list (Z * Z)) (d c : Z) :
  d ∉ acc.*1 → dict_set (keyed acc) (str d) c = keyed (acc ++ [(d, c)]).
Proof.
  induction acc as [|[d' c'] acc IH]; simpl; [done |].
  rewrite not_elem_of_cons. intros [Hne Hnotin].
  rewrite bool_decide_eq_false_2.
  - f_equal. by apply IH.
  - unfold str. intros Heq. apply Hne. symmetry. by apply (inj pretty).
Qed.

Lemma breakdown_loop_nonpositive (ds : list Z) (res : dict Z) (r : Z) :
  r ≤ 0 → breakdown_loop ds res r = Ok (res, r).
Proof.
  intros Hr. destruct ds as [|d ds]; simpl; [done |].
  by rewrite bool_decide_eq_true_2.
Qed.

(** The loop of the source computes the greedy decomposition: the pairs are
    appended to the dictionary in the order they are found, and what the
    pairs add up to is the amount less the remainder the loop ends with. *)
Lemma breakdown_loop_greedy (ds : list Z) (acc : list (Z * Z)) (r : Z) :
  positive_denominations ds → 0 ≤ r →
  Forall (λ p, r < p.1) acc →
  ∃ leftover,
    breakdown_loop ds (keyed acc) r = Ok (keyed (acc ++ greedy ds r), leftover) ∧
    0 ≤ leftover ∧
    pairs_total (greedy ds r) = r - leftover.
Proof.
  intros Hpos. revert acc r.
  induction Hpos as [|d ds Hd _ IH]; intros acc r Hr Hacc; simpl.
  { exists r. rewrite app_nil_r. split_and!; [done | done | lia]. }
  destruct (decide (r = 0)) as [->|Hnz].
  { exists 0. rewrite app_nil_r. done. }
  rewrite (bool_decide_eq_false_2 (r ≤ 0)) by lia.
  rewrite (bool_decide_eq_false_2 (r = 0)) by done.
  rewrite py_floordiv_pos by done. simpl.
  pose proof (Z.div_mod r d ltac:(lia)) as Hdm.
  pose proof (Z.mod_pos_bound r d Hd) as Hmod.
  case_bool_decide as Hcount.
  - assert (d ≤ r) as Hle by nia.
    rewrite dict_set_fresh.
    + destruct (IH (acc ++ [(d, r `div` d)]) (r - r `div` d * d))
        as (leftover & Hloop & Hleft & Htotal).
      * lia.
      * apply Forall_app. split.
        -- eapply Forall_impl; [exact Hacc |]. simpl. intros p Hp. lia.
        -- constructor; [simpl; lia | constructor].
      * exists leftover. rewrite Hloop, <- (assoc (++)). simpl.
        split_and!; [done | done | lia].
    + intros Hin. apply list_elem_of_fmap in Hin as (p & -> & Hp).
      rewrite Forall_forall in Hacc. specialize (Hacc p Hp). lia.
  - apply IH; done.
Qed.

(** Every pair of the greedy decomposition has a positive count and a
    denomination of the list that does not exceed the amount. *)
Lemma greedy_pairs (ds : list Z) (r : Z) :
  positive_denominations ds → 0 ≤ r →
  Forall (λ p, p.1 ∈ ds ∧ p.1 ≤ r ∧ 0 < p.2) (greedy ds r).
Proof.
  intros Hpos. revert r.
  induction Hpos as [|d ds Hd _ IH]; intros r Hr; simpl; [constructor |].
  case_bool_decide; [constructor |].
  pose proof (Z.div_mod r d ltac:(lia)) as Hdm.
  pose proof (Z.mod_pos_bound r d Hd) as Hmod.
  case_bool_decide as Hcount.
  - constructor.
    + simpl. split_and!; [by left | nia | done].
    + eapply Forall_impl; [apply (IH (r - r `div` d * d)); lia |].
      simpl. intros p (Hin & Hle & Hc). split_and!; [by right | lia | done].
  - eapply Forall_impl; [by apply IH |].
    simpl. intros p (Hin & Hle & Hc). split_and!; [by right | done..].
Qed.

(** The denominations recorded by the greedy pass strictly decrease. *)
Lemma greedy_descending (ds : list Z) (r : Z) :
  positive_denominations ds → 0 ≤ r →
  StronglySorted Z.gt (greedy ds r).*1.
Proof.
  intros Hpos. revert r.
  induction Hpos as [|d ds Hd Hpos IH]; intros r Hr; simpl; [constructor |].
  case_bool_decide; [constructor |].
  pose proof (Z.div_mod r d ltac:(lia)) as Hdm.
  pose proof (Z.mod_pos_bound r d Hd) as Hmod.
  case_bool_decide as Hcount; [| by apply IH].
  simpl. constructor.
  - apply IH. lia.
  - apply Forall_fmap.
    eapply Forall_impl; [apply (greedy_pairs ds (r - r `div` d * d)); [done | lia] |].
    simpl. intros p (_ & Hle & _). lia.
Qed.

Lemma change_breakdown_run (denoms : list Z) (amount : Z) :
  positive_denominations denoms → 0 ≤ amount →
  ∃ leftover,
    breakdown_loop (sorted_reverse denoms) [] amount
      = Ok (keyed (greedy (sorted_reverse denoms) amount), leftover) ∧
    change_breakdown denoms amount
      = Ok (mkBreakdown amount (keyed (greedy (sorted_reverse denoms) amount))) ∧
    0 ≤ leftover ∧
    pairs_total (greedy (sorted_reverse denoms) amount) = amount - leftover.
Proof.
  intros Hpos Hamount.
  destruct (breakdown_loop_greedy (sorted_reverse denoms) [] amount)
    as (leftover & Hloop & Hleft & Htotal);
    [by apply sorted_reverse_positive | done | constructor |].
  simpl in Hloop. exists leftover.
  unfold change_breakdown. rewrite Hloop. done.
Qed.

(** C4: for positive denominations and an amount ≥ 0, [change_breakdown]
    returns the original amount together with the greedy decomposition over
    the denominations from largest to smallest ([count = remaining // denom],
    recorded only when positive, [count * denom] subtracted, nothing more
    once the remainder is 0), keyed by [str(denom)]; the recorded
    denominations strictly decrease and every recorded count is positive.
    With {10,5,2,1}, 18 gives {"10":1,"5":1,"2":1,"1":1} and change 18. *)
Theorem change_breakdown_greedy (denoms : list Z) (amount : Z) :
  positive_denominations denoms → 0 ≤ amount →
  (StronglySorted Z.ge (sorted_reverse denoms) ∧
   sorted_reverse denoms ≡ₚ denoms) ∧
  change_breakdown denoms amount
    = Ok (mkBreakdown amount (keyed (greedy (sorted_reverse denoms) amount))) ∧
  StronglySorted Z.gt (greedy (sorted_reverse denoms) amount).*1 ∧
  Forall (λ p, p.1 ∈ denoms ∧ 0 < p.2) (greedy (sorted_reverse denoms) amount) ∧
  change_breakdown [10; 5; 2; 1] 18
    = Ok (mkBreakdown 18 [("10", 1); ("5", 1); ("2", 1); ("1", 1)]).
Proof.
  intros Hpos Hamount.
  pose proof (sorted_reverse_positive denoms Hpos) as Hsorted.
  split_and!.
  - apply sorted_reverse_descending.
  - apply sorted_reverse_perm.
  - by destruct (change_breakdown_run denoms amount Hpos Hamount)
      as (leftover & _ & Hrun & _).
  - by apply greedy_descending.
  - eapply Forall_impl; [by apply greedy_pairs |].
    simpl. intros p (Hin & _ & Hc). by rewrite <- sorted_reverse_elem_of.
  - by vm_compute.
Qed.

Lemma change_breakdown_greedy_witness :
  change_breakdown [10; 5; 2; 1] 18
    = Ok (mkBreakdown 18 (keyed (greedy (sorted_reverse [10; 5; 2; 1]) 18))).
Proof.
  assert (Hpos : positive_denominations [10; 5; 2; 1]).
  { unfold positive_denominations. repeat constructor. }
  assert (Hamount : 0 ≤ 18) by lia.
  exact (proj1 (proj2 (change_breakdown_greedy [10; 5; 2; 1] 18 Hpos Hamount))).
Defined.

(** C5: for positive denominations and an amount ≥ 0, [change_breakdown]
    returns normally whether or not the denominations cover the amount; the
    denominations times their counts in the returned mapping add up to the
    amount less the remainder the loop ends with, which is never negative;
    and that remainder can be positive: with {2,5} the amount 8 is answered
    with {"5":1,"2":1}, which adds up to 7, and the remaining 1 is dropped. *)
Theorem change_breakdown_drops_leftover (denoms : list Z) (amount : Z) :
  positive_denominations denoms → 0 ≤ amount →
  (∃ res leftover,
     breakdown_loop (sorted_reverse denoms) [] amount = Ok (res, leftover) ∧
     change_breakdown denoms amount = Ok (mkBreakdown amount res) ∧
     0 ≤ leftover ∧
     (∃ pairs, keyed pairs = res) ∧
     (∀ pairs, keyed pairs = res → pairs_total pairs = amount - leftover)) ∧
  ((1 ∉ [2; 5]) ∧
   breakdown_loop (sorted_reverse [2; 5]) [] 8 = Ok ([("5", 1); ("2", 1)], 1) ∧
   change_breakdown [2; 5] 8 = Ok (mkBreakdown 8 [("5", 1); ("2", 1)]) ∧
   pairs_total [(5, 1); (2, 1)] = 7).
Proof.
  intros Hpos Hamount. split.
  - destruct (change_breakdown_run denoms amount Hpos Hamount)
      as (leftover & Hloop & Hrun & Hleft & Htotal).
    eexists _, leftover. split_and!; [exact Hloop | exact Hrun | done | by eexists |].
    intros pairs Hpairs. by rewrite (keyed_inj _ _ Hpairs).
  - split_and!; [| by vm_compute..].
    rewrite !not_elem_of_cons. split_and!; [done | done | apply not_elem_of_nil].
Qed.

Lemma change_breakdown_drops_leftover_witness :
  ∃ res leftover,
    breakdown_loop (sorted_reverse [3; 7]) [] 12 = Ok (res, leftover) ∧
    change_breakdown [3; 7] 12 = Ok (mkBreakdown 12 res) ∧
    0 ≤ leftover.
Proof.
  assert (Hpos : positive_denominations [3; 7]).
  { unfold positive_denominations. repeat constructor. }
  assert (Hamount : 0 ≤ 12) by lia.
  destruct (proj1 (change_breakdown_drops_leftover [3; 7] 12 Hpos Hamount))
    as (res & leftover & Hloop & Hrun & Hleft & _).
  exists res, leftover. split_and!; [exact Hloop | exact Hrun | exact Hleft].
Defined.

(** C10: [change_breakdown] is defined on every integer: for an amount ≤ 0
    it raises nothing, whatever the denominations (a zero among them
    included), and returns the amount with an empty mapping; with positive
    denominations it returns on every amount. *)
Theorem change_breakdown_nonpositive (denoms : list Z) (amount : Z) :
  amount ≤ 0 →
  change_breakdown denoms amount = Ok (mkBreakdown amount []) ∧
  (positive_denominations denoms →
   ∀ n, ∃ b, change_breakdown denoms n = Ok b ∧ bd_change b = n).
Proof.
  intros Hle.
  assert (Hempty : ∀ n, n ≤ 0 →
            change_breakdown denoms n = Ok (mkBreakdown n [])).
  { intros n Hn. unfold change_breakdown.
    by rewrite breakdown_loop_nonpositive. }
  split; [by apply Hempty |].
  intros Hpos n. destruct (decide (n ≤ 0)) as [Hn|Hn].
  - eexists. split; [by apply Hempty | done].
  - destruct (change_breakdown_run denoms n Hpos ltac:(lia))
      as (leftover & _ & Hrun & _).
    eexists. split; [exact Hrun | done].
Qed.

Lemma change_breakdown_nonpositive_witness :
  change_breakdown [0; 5] (-3) = Ok (mkBreakdown (-3) []).
Proof.
  assert (Hle : -3 ≤ 0) by lia.
  exact (proj1 (change_breakdown_nonpositive [0; 5] (-3) Hle)).
Defined.

(** * Further properties of the validator *)

Lemma foldl_mod_zero (ds : list Z) :
  foldl (λ remaining denom, remaining `mod` denom) 0 ds = 0.
Proof. induction ds as [|d ds IH]; simpl; [done |]. by rewrite Zmod_0_l. Qed.

(** A chain that meets a divisor of the current remainder ends at 0. *)
Lemma foldl_mod_divisor (d : Z) (ds : list Z) (r : Z) :
  r `mod` d = 0 →
  foldl (λ remaining denom, remaining `mod` denom) r (d :: ds) = 0.
Proof. intros Hr. simpl. rewrite Hr. apply foldl_mod_zero. Qed.

Lemma foldl_mod_unit (ds : list Z) (r : Z) :
  1 ∈ ds → foldl (λ remaining denom, remaining `mod` denom) r ds = 0.
Proof.
  revert r. induction ds as [|d ds IH]; intros r Hin.
  - by apply elem_of_nil in Hin.
  - apply elem_of_cons in Hin as [<-|Hin].
    + apply foldl_mod_divisor, Z.mod_1_r.
    + simpl. by apply IH.
Qed.

(** In a descending list of positive integers the chain started at one of
    its members passes the larger ones unchanged and ends at 0. *)
Lemma foldl_mod_member (ds : list Z) (d : Z) :
  StronglySorted Z.ge ds → positive_denominations ds → d ∈ ds →
  foldl (λ remaining denom, remaining `mod` denom) d ds = 0.
Proof.
  intros Hsorted. induction Hsorted as [|x ds Hsorted IH Hx]; intros Hpos Hin.
  - by apply elem_of_nil in Hin.
  - apply Forall_cons in Hpos as [Hxpos Hpos].
    destruct (decide (d = x)) as [->|Hne].
    + apply foldl_mod_divisor, Z.mod_same. lia.
    + apply elem_of_cons in Hin as [?|Hin]; [done |].
      pose proof (proj1 (Forall_forall _ _) Hx d Hin) as Hge.
      pose proof (proj1 (Forall_forall _ _) Hpos d Hin) as Hd.
      simpl in Hd. simpl. rewrite Z.mod_small by lia.
      by apply IH.
Qed.

(** The first denomination of the descending sort is the largest one. *)
Lemma sorted_reverse_head (denoms : list Z) (d : Z) :
  d ∈ denoms → (∀ d', d' ∈ denoms → d' ≤ d) →
  ∃ rest, sorted_reverse denoms = d :: rest.
Proof.
  intros Hin Hmax.
  pose proof (sorted_reverse_descending denoms) as Hsorted.
  destruct (sorted_reverse denoms) as [|x rest] eqn:Heq.
  - apply sorted_reverse_elem_of in Hin. rewrite Heq in Hin.
    by apply elem_of_nil in Hin.
  - exists rest. f_equal.
    assert (x ∈ denoms) as Hx.
    { apply sorted_reverse_elem_of. rewrite Heq. by left. }
    assert (d ∈ x :: rest) as Hd.
    { rewrite <- Heq. by apply sorted_reverse_elem_of. }
    apply StronglySorted_inv in Hsorted as [_ Hge].
    apply elem_of_cons in Hd as [->|Hd]; [done |].
    rewrite Forall_forall in Hge. specialize (Hge d Hd).
    specialize (Hmax x Hx). lia.
Qed.

Lemma mod_loop_raise_iff (ds : list Z) (r : Z) (e : exn) :
  mod_loop ds r = Raise e ↔ e = ZeroDivisionError ∧ 0 ∈ ds.
Proof.
  revert r. induction ds as [|d ds IH]; intros r; simpl.
  - split; [done | intros [_ Hin]; by apply elem_of_nil in Hin].
  - unfold py_mod. case_bool_decide as Hd; simpl.
    + subst d. split; [intros ?; simplify_eq; split; [done | by left] |].
      by intros [-> _].
    + rewrite IH, elem_of_cons. split; [intros [? ?]; auto |].
      intros [? [?|?]]; [congruence | done].
Qed.

Lemma is_valid_raise_iff (denoms : list Z) (amount : Z) (e : exn) :
  _is_valid_denomination_amount denoms amount = Raise e ↔
  e = ZeroDivisionError ∧ 0 < amount ∧ 0 ∈ denoms.
Proof.
  unfold _is_valid_denomination_amount. case_bool_decide as Hle.
  - split; [done | intros (_ & ? & _); lia].
  - destruct (mod_loop (sorted_reverse denoms) amount) as [r|e'] eqn:Hloop;
      simpl.
    + split; [done |]. intros (-> & _ & Hin).
      assert (mod_loop (sorted_reverse denoms) amount = Raise ZeroDivisionError)
        as Hraise.
      { apply mod_loop_raise_iff. split; [done |].
        by apply sorted_reverse_elem_of. }
      congruence.
    + apply mod_loop_raise_iff in Hloop as [-> Hin].
      rewrite sorted_reverse_elem_of in Hin.
      split; [| by intros (-> & _)].
      intros ?; simplify_eq. split_and!; [done | lia | done].
Qed.

(** X1: with positive denominations, an amount the validator accepts is
    positive and is a sum of denomination values with repetition; the
    converse fails, the validator rejecting some such sums: with {2,5} it
    rejects 6 = 2 + 2 + 2. *)
Theorem validator_sound_not_complete (denoms : list Z) (amount : Z) :
  positive_denominations denoms →
  (_is_valid_denomination_amount denoms amount = Ok true →
   0 < amount ∧ coin_sum denoms amount) ∧
  (positive_denominations [2; 5] ∧ coin_sum [2; 5] 6 ∧
   _is_valid_denomination_amount [2; 5] 6 = Ok false).
Proof.
  intros Hpos. split.
  - intros Hvalid. split; [| by apply is_valid_coin_sum].
    destruct (decide (0 < amount)) as [|Hle]; [done |].
    rewrite is_valid_nonpositive in Hvalid by lia. done.
  - split_and!; [unfold positive_denominations; repeat constructor | |
                 by vm_compute].
    change 6 with (2 + (2 + (2 + 0))).
    repeat (constructor; [by left |]). constructor.
Qed.

Lemma validator_sound_not_complete_witness :
  0 < 18 ∧ coin_sum [1; 2; 5; 10] 18.
Proof.
  refine (proj1 (validator_sound_not_complete [1; 2; 5; 10] 18 demo_positive) _).
  vm_compute; reflexivity.
Defined.

(** X2: with positive denominations, every denomination value is itself a
    valid amount. *)
Theorem validator_accepts_each_denomination (denoms : list Z) (d : Z) :
  positive_denominations denoms → d ∈ denoms →
  _is_valid_denomination_amount denoms d = Ok true.
Proof.
  intros Hpos Hin.
  assert (0 < d) as Hd.
  { unfold positive_denominations in Hpos. rewrite Forall_forall in Hpos.
    by apply Hpos. }
  rewrite is_valid_positive by done.
  apply f_equal, bool_decide_eq_true_2. unfold mod_chain.
  apply foldl_mod_member.
  - apply sorted_reverse_descending.
  - by apply sorted_reverse_positive.
  - by apply sorted_reverse_elem_of.
Qed.

Lemma validator_accepts_each_denomination_witness :
  _is_valid_denomination_amount [4; 6; 9] 4 = Ok true.
Proof.
  apply validator_accepts_each_denomination.
  - unfold positive_denominations. repeat constructor.
  - by left.
Defined.

(** X3: with positive denominations, every positive multiple of the largest
    denomination is a valid amount. *)
Theorem validator_accepts_multiples_of_largest (denoms : list Z) (d k : Z) :
  positive_denominations denoms → d ∈ denoms →
  (∀ d', d' ∈ denoms → d' ≤ d) → 0 < k →
  _is_valid_denomination_amount denoms (k * d) = Ok true.
Proof.
  intros Hpos Hin Hmax Hk.
  assert (0 < d) as Hd.
  { unfold positive_denominations in Hpos. rewrite Forall_forall in Hpos.
    by apply Hpos. }
  rewrite is_valid_positive by (done || lia).
  apply f_equal, bool_decide_eq_true_2. unfold mod_chain.
  destruct (sorted_reverse_head denoms d Hin Hmax) as [rest ->].
  apply foldl_mod_divisor, Z.mod_mul. lia.
Qed.

Lemma validator_accepts_multiples_of_largest_witness :
  _is_valid_denomination_amount [4; 6] (3 * 6) = Ok true.
Proof.
  apply validator_accepts_multiples_of_largest.
  - unfold positive_denominations. repeat constructor.
  - right. by left.
  - intros d' Hd'. repeat (apply elem_of_cons in Hd' as [->|Hd']; [lia |]).
    by apply elem_of_nil in Hd'.
  - lia.
Defined.

(** X4: with positive denominations that include 1, the validator accepts
    exactly the positive amounts. *)
Theorem validator_with_unit_denomination (denoms : list Z) (amount : Z) :
  positive_denominations denoms → 1 ∈ denoms →
  _is_valid_denomination_amount denoms amount = Ok (bool_decide (0 < amount)).
Proof.
  intros Hpos Hunit. destruct (decide (0 < amount)) as [Hlt|Hle].
  - rewrite is_valid_positive by done.
    rewrite (bool_decide_eq_true_2 (0 < amount)) by done.
    apply f_equal, bool_decide_eq_true_2. unfold mod_chain.
    apply foldl_mod_unit. by apply sorted_reverse_elem_of.
  - rewrite is_valid_nonpositive by lia.
    by rewrite (bool_decide_eq_false_2 (0 < amount)).
Qed.

Lemma validator_with_unit_denomination_witness :
  _is_valid_denomination_amount [1; 2; 5; 10] 13 = Ok (bool_decide (0 < 13)).
Proof.
  apply validator_with_unit_denomination; [exact demo_positive | by left].
Defined.

(** X5: whatever the denominations, the validator raises exactly when the
    amount is positive and 0 is among the denominations, and what it raises
    then is [ZeroDivisionError]. *)
Theorem validator_raises_iff_zero_denomination (denoms : list Z) (amount : Z)
    (e : exn) :
  _is_valid_denomination_amount denoms amount = Raise e ↔
  e = ZeroDivisionError ∧ 0 < amount ∧ 0 ∈ denoms.
Proof. apply is_valid_raise_iff. Qed.

(** * Further properties of the change calculator *)

(** The remainder the loop of [change_breakdown] ends with is the value of
    the validator's modulo chain. *)
Lemma breakdown_loop_leftover (ds : list Z) (res : dict Z) (r : Z) :
  positive_denominations ds → 0 ≤ r →
  ∃ res', breakdown_loop ds res r
          = Ok (res', foldl (λ remaining denom, remaining `mod` denom) r ds).
Proof.
  intros Hpos. revert res r.
  induction Hpos as [|d ds Hd _ IH]; intros res r Hr; simpl; [by eexists |].
  case_bool_decide as Hle.
  - assert (r = 0) as -> by lia. rewrite Zmod_0_l, foldl_mod_zero. by eexists.
  - rewrite py_floordiv_pos by done. simpl.
    pose proof (Z.div_mod r d ltac:(lia)) as Hdm.
    pose proof (Z.mod_pos_bound r d Hd) as Hmod.
    case_bool_decide as Hcount.
    + replace (r - r `div` d * d) with (r `mod` d) by lia.
      apply IH. lia.
    + assert (r `div` d = 0) as Hzero.
      { pose proof (Z.div_pos r d ltac:(lia) Hd). lia. }
      replace (r `mod` d) with r by lia. by apply IH.
Qed.

Lemma foldl_mod_bound (ds : list Z) (r : Z) :
  positive_denominations ds → 0 ≤ r →
  0 ≤ foldl (λ remaining denom, remaining `mod` denom) r ds ≤ r ∧
  ∀ d, d ∈ ds → foldl (λ remaining denom, remaining `mod` denom) r ds < d.
Proof.
  intros Hpos. revert r.
  induction Hpos as [|d ds Hd _ IH]; intros r Hr; simpl.
  - split; [lia |]. intros d Hin. by apply elem_of_nil in Hin.
  - pose proof (Z.mod_pos_bound r d Hd) as Hmod.
    pose proof (Z.mod_le r d Hr Hd) as Hle.
    destruct (IH (r `mod` d) ltac:(lia)) as [Hbound Hlt].
    split; [lia |]. intros d' Hin.
    apply elem_of_cons in Hin as [->|Hin]; [lia | by apply Hlt].
Qed.

Lemma change_breakdown_total (denoms : list Z) (amount : Z) :
  positive_denominations denoms → 0 ≤ amount →
  breakdown_loop (sorted_reverse denoms) [] amount
    = Ok (keyed (greedy (sorted_reverse denoms) amount),
          mod_chain denoms amount) ∧
  change_breakdown denoms amount
    = Ok (mkBreakdown amount (keyed (greedy (sorted_reverse denoms) amount))) ∧
  pairs_total (greedy (sorted_reverse denoms) amount)
    = amount - mod_chain denoms amount.
Proof.
  intros Hpos Hamount.
  destruct (change_breakdown_run denoms amount Hpos Hamount)
    as (leftover & Hloop & Hrun & _ & Htotal).
  destruct (breakdown_loop_leftover (sorted_reverse denoms) [] amount)
    as [res' Hleft]; [by apply sorted_reverse_positive | done |].
  rewrite Hloop in Hleft. injection Hleft as _ Hleftover.
  unfold mod_chain. by rewrite <- Hleftover.
Qed.

Lemma breakdown_loop_raise (ds : list Z) (res : dict Z) (r : Z) (e : exn) :
  breakdown_loop ds res r = Raise e →
  e = ZeroDivisionError ∧ 0 ∈ ds ∧ 0 < r.
Proof.
  revert res r. induction ds as [|d ds IH]; intros res r; simpl; [done |].
  case_bool_decide as Hle; [done |].
  unfold py_floordiv. case_bool_decide as Hd; simpl.
  - subst d. intros ?; simplify_eq. split_and!; [done | by left | lia].
  - case_bool_decide; intros Hloop; apply IH in Hloop as (-> & Hin & _);
      (split_and!; [done | by right | lia]).
Qed.

(** When 1 is among the denominations the loop never reaches a
    denomination below 1 with something left to decompose. *)
Lemma breakdown_loop_unit (ds : list Z) (res : dict Z) (r : Z) :
  StronglySorted Z.ge ds → 1 ∈ ds →
  ∃ out, breakdown_loop ds res r = Ok out.
Proof.
  intros Hsorted. revert res r.
  induction Hsorted as [|x ds Hsorted IH Hx]; intros res r Hin.
  - by apply elem_of_nil in Hin.
  - simpl. case_bool_decide as Hle; [by eexists |].
    assert (1 ≤ x) as Hx1.
    { apply elem_of_cons in Hin as [->|Hin]; [done |].
      pose proof (proj1 (Forall_forall _ _) Hx 1 Hin). lia. }
    rewrite py_floordiv_pos by lia. simpl.
    destruct (decide (x = 1)) as [->|Hne].
    + rewrite Z.div_1_r, bool_decide_eq_true_2 by lia.
      rewrite breakdown_loop_nonpositive by lia. by eexists.
    + apply elem_of_cons in Hin as [?|Hin]; [done |].
      case_bool_decide; by apply IH.
Qed.

(** X6: for positive denominations and an amount ≥ 0, the remainder the
    loop of [change_breakdown] ends with is the value of the validator's
    modulo chain; so for an amount > 0 the returned mapping adds up to the
    whole amount exactly when the validator accepts the amount. *)
Theorem change_breakdown_exact_iff_valid (denoms : list Z) (amount : Z) :
  positive_denominations denoms → 0 ≤ amount →
  ∃ res,
    breakdown_loop (sorted_reverse denoms) [] amount
      = Ok (res, mod_chain denoms amount) ∧
    change_breakdown denoms amount = Ok (mkBreakdown amount res) ∧
    (∀ pairs, keyed pairs = res →
       pairs_total pairs = amount - mod_chain denoms amount ∧
       (0 < amount →
        (pairs_total pairs = amount ↔
         _is_valid_denomination_amount denoms amount = Ok true))).
Proof.
  intros Hpos Hamount.
  destruct (change_breakdown_total denoms amount Hpos Hamount)
    as (Hloop & Hrun & Htotal).
  eexists. split_and!; [exact Hloop | exact Hrun |].
  intros pairs Hpairs. apply keyed_inj in Hpairs as ->.
  split; [done |]. intros Hlt.
  rewrite is_valid_positive, Htotal by done.
  split.
  - intros Heq. apply f_equal, bool_decide_eq_true_2. lia.
  - intros Heq. injection Heq as Heq. apply bool_decide_eq_true_1 in Heq. lia.
Qed.

Lemma change_breakdown_exact_iff_valid_witness :
  ∃ res,
    breakdown_loop (sorted_reverse [4; 6]) [] 8 = Ok (res, mod_chain [4; 6] 8) ∧
    change_breakdown [4; 6] 8 = Ok (mkBreakdown 8 res).
Proof.
  assert (Hpos : positive_denominations [4; 6]).
  { unfold positive_denominations. repeat constructor. }
  assert (Hamount : 0 ≤ 8) by lia.
  destruct (change_breakdown_exact_iff_valid [4; 6] 8 Hpos Hamount)
    as (res & Hloop & Hrun & _).
  exists res. split; [exact Hloop | exact Hrun].
Defined.

(** X7: for positive denominations and an amount ≥ 0, the part of the
    amount that [change_breakdown] leaves out of the mapping is not negative,
    is at most the amount, and is smaller than every denomination. *)
Theorem change_breakdown_leftover_below_denominations (denoms : list Z)
    (amount : Z) :
  positive_denominations denoms → 0 ≤ amount →
  ∃ res leftover,
    breakdown_loop (sorted_reverse denoms) [] amount = Ok (res, leftover) ∧
    change_breakdown denoms amount = Ok (mkBreakdown amount res) ∧
    (∀ pairs, keyed pairs = res → amount - pairs_total pairs = leftover) ∧
    0 ≤ leftover ≤ amount ∧
    (∀ d, d ∈ denoms → leftover < d).
Proof.
  intros Hpos Hamount.
  destruct (change_breakdown_total denoms amount Hpos Hamount)
    as (Hloop & Hrun & Htotal).
  destruct (foldl_mod_bound (sorted_reverse denoms) amount) as [Hbound Hlt];
    [by apply sorted_reverse_positive | done |].
  eexists _, _. split_and!; [exact Hloop | exact Hrun | | apply Hbound..|].
  - intros pairs Hpairs. apply keyed_inj in Hpairs as ->. lia.
  - intros d Hin. apply Hlt. by apply sorted_reverse_elem_of.
Qed.

Lemma change_breakdown_leftover_below_denominations_witness :
  ∃ res leftover,
    breakdown_loop (sorted_reverse [4; 6]) [] 9 = Ok (res, leftover) ∧
    (∀ d, d ∈ [4; 6] → leftover < d).
Proof.
  assert (Hpos : positive_denominations [4; 6]).
  { unfold positive_denominations. repeat constructor. }
  assert (Hamount : 0 ≤ 9) by lia.
  destruct (change_breakdown_leftover_below_denominations [4; 6] 9 Hpos Hamount)
    as (res & leftover & Hloop & _ & _ & _ & Hlt).
  exists res, leftover. split; [exact Hloop | exact Hlt].
Defined.

(** X8: with positive denominations that include 1, the mapping returned
    for an amount ≥ 0 adds up to the whole amount: nothing is dropped. *)
Theorem change_breakdown_exact_with_unit (denoms : list Z) (amount : Z) :
  positive_denominations denoms → 1 ∈ denoms → 0 ≤ amount →
  ∃ res,
    change_breakdown denoms amount = Ok (mkBreakdown amount res) ∧
    breakdown_loop (sorted_reverse denoms) [] amount = Ok (res, 0) ∧
    (∀ pairs, keyed pairs = res → pairs_total pairs = amount).
Proof.
  intros Hpos Hunit Hamount.
  destruct (change_breakdown_total denoms amount Hpos Hamount)
    as (Hloop & Hrun & Htotal).
  assert (mod_chain denoms amount = 0) as Hzero.
  { unfold mod_chain. apply foldl_mod_unit. by apply sorted_reverse_elem_of. }
  rewrite Hzero in Hloop, Htotal.
  eexists. split_and!; [exact Hrun | exact Hloop |].
  intros pairs Hpairs. apply keyed_inj in Hpairs as ->. lia.
Qed.

Lemma change_breakdown_exact_with_unit_witness :
  ∃ res,
    change_breakdown [1; 2; 5; 10] 18 = Ok (mkBreakdown 18 res) ∧
    breakdown_loop (sorted_reverse [1; 2; 5; 10]) [] 18 = Ok (res, 0).
Proof.
  assert (Hunit : 1 ∈ [1; 2; 5; 10]) by by left.
  assert (Hamount : 0 ≤ 18) by lia.
  destruct (change_breakdown_exact_with_unit [1; 2; 5; 10] 18 demo_positive
              Hunit Hamount) as (res & Hrun & Hloop & _).
  exists res. split; [exact Hrun | exact Hloop].
Defined.

(** X9: whatever the denominations, [change_breakdown] can only raise
    [ZeroDivisionError], and only on a positive amount with 0 among the
    denominations and 1 not among them: the positive denominations are tried
    first, and once 1 has been tried nothing is left. *)
Theorem change_breakdown_raises_only_on_zero_denomination (denoms : list Z)
    (amount : Z) (e : exn) :
  change_breakdown denoms amount = Raise e →
  e = ZeroDivisionError ∧ 0 ∈ denoms ∧ 0 < amount ∧ 1 ∉ denoms.
Proof.
  unfold change_breakdown. intros Hraise.
  destruct (breakdown_loop (sorted_reverse denoms) [] amount)
    as [[res leftover]|e'] eqn:Hloop; simpl in Hraise; [done |].
  simplify_eq.
  pose proof (breakdown_loop_raise _ _ _ _ Hloop) as (-> & Hin & Hlt).
  split_and!; [done | by apply sorted_reverse_elem_of | done |].
  intros Hunit.
  destruct (breakdown_loop_unit (sorted_reverse denoms) [] amount)
    as [out Hout]; [apply sorted_reverse_descending |
                    by apply sorted_reverse_elem_of |].
  congruence.
Qed.

Lemma change_breakdown_raises_only_on_zero_denomination_witness :
  ZeroDivisionError = ZeroDivisionError ∧ 0 ∈ [0; 5] ∧ 0 < 3 ∧ 1 ∉ [0; 5].
Proof.
  apply (change_breakdown_raises_only_on_zero_denomination [0; 5] 3).
  vm_compute; reflexivity.
Defined.

(** * Further properties of the purchase transaction *)

#[local] Instance Z_ge_antisymm : AntiSymm (=) Z.ge.
Proof. intros x y. lia. Qed.

Lemma sorted_reverse_permutation (xs ys : list Z) :
  xs ≡ₚ ys → sorted_reverse xs = sorted_reverse ys.
Proof.
  intros Hperm. apply (StronglySorted_unique Z.ge).
  - apply sorted_reverse_descending.
  - apply sorted_reverse_descending.
  - by rewrite !sorted_reverse_perm.
Qed.

Lemma is_valid_permutation (xs ys : list Z) (amount : Z) :
  xs ≡ₚ ys →
  _is_valid_denomination_amount xs amount
  = _is_valid_denomination_amount ys amount.
Proof.
  intros Hperm. unfold _is_valid_denomination_amount.
  by rewrite (sorted_reverse_permutation xs ys).
Qed.

Lemma can_make_change_permutation (xs ys : list Z) (change : Z) :
  xs ≡ₚ ys → _can_make_change xs change = _can_make_change ys change.
Proof.
  intros Hperm. unfold _can_make_change.
  by rewrite (is_valid_permutation xs ys).
Qed.

(** X10: the order in which the configuration lists the denominations does
    not matter: two lists that are permutations of each other give the same
    validator, the same change check, the same change breakdown and the same
    purchase, outcome and session alike. *)
Theorem denomination_order_irrelevant (denoms denoms' : list Z) :
  denoms ≡ₚ denoms' →
  (∀ amount, _is_valid_denomination_amount denoms amount
             = _is_valid_denomination_amount denoms' amount) ∧
  (∀ change, _can_make_change denoms change = _can_make_change denoms' change) ∧
  (∀ change, change_breakdown denoms change = change_breakdown denoms' change) ∧
  (∀ item_id cash s, purchase denoms item_id cash s
                     = purchase denoms' item_id cash s).
Proof.
  intros Hperm. split_and!.
  - intros amount. by apply is_valid_permutation.
  - intros change. by apply can_make_change_permutation.
  - intros change. unfold change_breakdown.
    by rewrite (sorted_reverse_permutation denoms denoms').
  - intros item_id cash s. rewrite !purchase_run.
    rewrite (is_valid_permutation denoms denoms') by done.
    destruct (_is_valid_denomination_amount denoms' cash) as [[|]|e]; try done.
    destruct (items (working s) !! item_id) as [item|]; [| done].
    by rewrite (can_make_change_permutation denoms denoms').
Qed.

Lemma denomination_order_irrelevant_witness :
  change_breakdown [1; 2; 5; 10] 18 = change_breakdown [10; 2; 1; 5] 18.
Proof.
  assert (Hperm : [1; 2; 5; 10] ≡ₚ [10; 2; 1; 5]).
  { apply (Permutation_trans (l' := [10; 1; 2; 5])).
    - symmetry. apply (Permutation_middle [1; 2; 5] [] 10).
    - apply perm_skip, perm_swap. }
  apply (denomination_order_irrelevant _ _ Hperm).
Defined.

(** X11: a purchase never makes a quantity negative: if no item of the
    session has a negative quantity before the call, none has after it,
    whether the call returns or raises; the same holds of the committed
    rows. *)
Theorem purchase_keeps_stock_nonnegative (denoms : list Z) (item_id : string)
    (cash : Z) (s : Session) :
  stock_nonnegative (working s) →
  stock_nonnegative (working (purchase denoms item_id cash s).2) ∧
  (stock_nonnegative (durable s) →
   stock_nonnegative (durable (purchase denoms item_id cash s).2)).
Proof.
  intros Hstock.
  destruct (purchase denoms item_id cash s).1 as [r|e] eqn:Hrun.
  - destruct (purchase_success_inv _ _ _ _ _ Hrun)
      as (item & (_ & Hitem & Hq & _) & _ & _ & ->).
    assert (stock_nonnegative (store_after_purchase item_id item (working s)))
      as Hafter.
    { unfold stock_nonnegative, store_after_purchase. simpl.
      apply map_Forall_insert_2; [simpl; lia | done]. }
    done.
  - by rewrite (purchase_failure_state _ _ _ _ _ Hrun).
Qed.

Lemma purchase_keeps_stock_nonnegative_witness :
  stock_nonnegative
    (working (purchase [1; 2; 5; 10] "cola" 15 (demo_session 10 1)).2).
Proof.
  apply purchase_keeps_stock_nonnegative.
  unfold stock_nonnegative, demo_session, demo_store. simpl.
  apply map_Forall_singleton. simpl. lia.
Defined.

(** X12: the record a successful purchase returns balances: the cash
    reported is the cash inserted and is positive, the price plus the change
    is the cash, the change is not negative, and neither is the remaining
    quantity. *)
Theorem purchase_receipt_balances (denoms : list Z) (item_id : string)
    (cash : Z) (s : Session) (r : PurchaseResult) :
  (purchase denoms item_id cash s).1 = Ok r →
  r_cash_inserted r = cash ∧
  0 < cash ∧
  r_price r + r_change_returned r = r_cash_inserted r ∧
  0 ≤ r_change_returned r ∧
  0 ≤ r_remaining_quantity r ∧
  r_message r = "Purchase successful".
Proof.
  intros Hrun.
  destruct (purchase_success_inv _ _ _ _ _ Hrun)
    as (item & (Hvalid & _ & Hq & Hp) & _ & -> & _).
  simpl. split_and!; [done | | lia | lia | lia | done].
  destruct (decide (0 < cash)) as [|Hle]; [done |].
  rewrite is_valid_nonpositive in Hvalid by lia. done.
Qed.

Lemma purchase_receipt_balances_witness :
  0 < 15 ∧ 10 + 5 = 15.
Proof.
  destruct (purchase_receipt_balances [1; 2; 5; 10] "cola" 15
              (demo_session 10 1)
              (mkPurchaseResult "Cola" 10 15 5 0 "Purchase successful"))
    as (_ & Hcash & Hsum & _).
  - vm_compute; reflexivity.
  - split; [exact Hcash | exact Hsum].
Defined.

(** X13: purchasing again after a success, with the same item and cash:
    when the first purchase sold the last unit the second raises
    [out_of_stock] and changes nothing; otherwise it succeeds too, with the
    same change and one unit less remaining. *)
Theorem purchase_again (denoms : list Z) (item_id : string) (cash : Z)
    (s : Session) (r : PurchaseResult) :
  (purchase denoms item_id cash s).1 = Ok r →
  (r_remaining_quantity r = 0 →
   purchase denoms item_id cash (purchase denoms item_id cash s).2
   = (Raise out_of_stock, (purchase denoms item_id cash s).2)) ∧
  (0 < r_remaining_quantity r →
   ∃ r', (purchase denoms item_id cash (purchase denoms item_id cash s).2).1
           = Ok r' ∧
         r_remaining_quantity r' = r_remaining_quantity r - 1 ∧
         r_change_returned r' = r_change_returned r ∧
         r_price r' = r_price r ∧
         r_item r' = r_item r).
Proof.
  intros Hrun.
  destruct (purchase_success_inv _ _ _ _ _ Hrun)
    as (item & (Hvalid & Hitem & Hq & Hp) & Hchange & -> & ->).
  assert (items (store_after_purchase item_id item (working s)) !! item_id
          = Some (sell item)) as Hsold by apply lookup_insert_eq.
  set (w' := store_after_purchase item_id item (working s)) in *.
  split.
  - intros Hlast. simpl in Hlast.
    rewrite purchase_run, Hvalid. cbn [working]. rewrite Hsold.
    rewrite bool_decide_eq_true_2; [done | simpl; lia].
  - intros Hmore. simpl in Hmore.
    rewrite (purchase_success denoms item_id cash _ (sell item)).
    + eexists. simpl. done.
    + unfold passes_steps_1_to_3. cbn [working]. rewrite Hsold. simpl.
      split_and!; [done | done | lia | lia].
    + done.
Qed.

Lemma purchase_again_witness :
  purchase [1; 2; 5; 10] "cola" 15
    (purchase [1; 2; 5; 10] "cola" 15 (demo_session 10 1)).2
  = (Raise out_of_stock,
     (purchase [1; 2; 5; 10] "cola" 15 (demo_session 10 1)).2).
Proof.
  refine (proj1 (purchase_again [1; 2; 5; 10] "cola" 15 (demo_session 10 1)
                   (mkPurchaseResult "Cola" 10 15 5 0 "Purchase successful")
                   _) _).
  - vm_compute; reflexivity.
  - reflexivity.
Defined.

(** X14: whatever the denominations, [purchase] raises [ZeroDivisionError]
    exactly when the cash is positive and 0 is among the denominations (the
    item is then not even looked up), and it never fails at reloading the
    item after the commit. *)
Theorem purchase_zero_division (denoms : list Z) (item_id : string)
    (cash : Z) (s : Session) :
  ((purchase denoms item_id cash s).1 = Raise ZeroDivisionError ↔
   0 < cash ∧ 0 ∈ denoms) ∧
  (purchase denoms item_id cash s).1 ≠ Raise InvalidRequestError.
Proof.
  rewrite purchase_run.
  destruct (_is_valid_denomination_amount denoms cash) as [b|e] eqn:Hvalid.
  - assert (¬ (0 < cash ∧ 0 ∈ denoms)) as Hnot.
    { intros [Hlt Hin].
      assert (_is_valid_denomination_amount denoms cash
              = Raise ZeroDivisionError) as Hraise
        by by apply is_valid_raise_iff.
      congruence. }
    assert (∀ change e', _can_make_change denoms change = Raise e' →
                         b = true → False) as Hchange.
    { intros change e' Hraise ->.
      unfold _can_make_change in Hraise. case_bool_decide; [| done].
      apply is_valid_raise_iff in Hraise as (_ & _ & Hin).
      apply Hnot. split; [| done].
      destruct (decide (0 < cash)) as [|Hle]; [done |].
      rewrite is_valid_nonpositive in Hvalid by lia. done. }
    destruct b; [| by split; [split; [| tauto] |]].
    destruct (items (working s) !! item_id) as [item|];
      [| by split; [split; [| tauto] |]].
    repeat case_bool_decide; try by split; [split; [| tauto] |].
    destruct (_can_make_change denoms (cash - price item)) as [[|]|e'] eqn:Hc;
      try by split; [split; [| tauto] |].
    exfalso. by eapply Hchange.
  - apply is_valid_raise_iff in Hvalid as (-> & Hlt & Hin). simpl.
    split; [by split |done].
Qed.

(** X15: with positive denominations that include 1, a purchase is refused
    for its cash only when the cash is not positive: it raises
    [invalid_denomination] exactly when cash ≤ 0, never raises
    [cannot_make_change], and succeeds whenever the cash is positive and
    covers the price of an item in stock. *)
Theorem purchase_with_unit_denomination (denoms : list Z) (item_id : string)
    (cash : Z) (s : Session) :
  positive_denominations denoms → 1 ∈ denoms →
  ((purchase denoms item_id cash s).1 = Raise invalid_denomination ↔ cash ≤ 0) ∧
  (purchase denoms item_id cash s).1 ≠ Raise cannot_make_change ∧
  (∀ item, items (working s) !! item_id = Some item →
           0 < cash → 0 < quantity item → price item ≤ cash →
           (purchase denoms item_id cash s).1 = Ok (receipt item cash)).
Proof.
  intros Hpos Hunit.
  assert (∀ amount, _is_valid_denomination_amount denoms amount
                    = Ok (bool_decide (0 < amount))) as Hvalid.
  { intros amount. destruct (decide (0 < amount)) as [Hlt|Hle].
    - rewrite is_valid_positive by done.
      rewrite (bool_decide_eq_true_2 (0 < amount)) by done.
      apply f_equal, bool_decide_eq_true_2. unfold mod_chain.
      apply foldl_mod_unit. by apply sorted_reverse_elem_of.
    - rewrite is_valid_nonpositive by lia.
      by rewrite (bool_decide_eq_false_2 (0 < amount)). }
  assert (∀ change, _can_make_change denoms change = Ok true) as Hchange.
  { intros change. destruct (decide (0 < change)) as [Hlt|Hle].
    - rewrite can_make_change_positive, Hvalid by done.
      by rewrite bool_decide_eq_true_2.
    - apply can_make_change_nonpositive. lia. }
  split_and!.
  - rewrite purchase_run, Hvalid. case_bool_decide as Hcash.
    + split; [| lia].
      destruct (items (working s) !! item_id) as [item|]; [| done].
      rewrite Hchange. by repeat case_bool_decide.
    + split; [intros _; lia | done].
  - rewrite purchase_run, Hvalid.
    case_bool_decide; [| done].
    destruct (items (working s) !! item_id) as [item|]; [| done].
    rewrite Hchange. by repeat case_bool_decide.
  - intros item Hitem Hcash Hq Hp.
    rewrite (purchase_success denoms item_id cash s item); [done | | done].
    unfold passes_steps_1_to_3. rewrite Hvalid.
    rewrite bool_decide_eq_true_2 by done. done.
Qed.

Lemma purchase_with_unit_denomination_witness :
  (purchase [1; 2; 5; 10] "cola" 13 (demo_session 10 2)).1
  = Ok (receipt (mkItem "Cola" 10 2 (Some "A1")) 13).
Proof.
  assert (Hunit : 1 ∈ [1; 2; 5; 10]) by by left.
  refine (proj2 (proj2 (purchase_with_unit_denomination [1; 2; 5; 10] "cola" 13
                          (demo_session 10 2) demo_positive Hunit))
            _ _ _ _ _).
  - vm_compute; reflexivity.
  - lia.
  - simpl; lia.
  - simpl; lia.
Defined.

(** X16: with positive denominations, the change a successful purchase
    returns is one [change_breakdown] decomposes completely: the mapping it
    returns for that change adds up to the change, nothing being dropped. *)
Theorem purchase_change_breaks_down_exactly (denoms : list Z)
    (item_id : string) (cash : Z) (s : Session) (r : PurchaseResult) :
  positive_denominations denoms →
  (purchase denoms item_id cash s).1 = Ok r →
  ∃ res,
    change_breakdown denoms (r_change_returned r)
      = Ok (mkBreakdown (r_change_returned r) res) ∧
    breakdown_loop (sorted_reverse denoms) [] (r_change_returned r)
      = Ok (res, 0) ∧
    (∀ pairs, keyed pairs = res → pairs_total pairs = r_change_returned r).
Proof.
  intros Hpos Hrun.
  destruct (purchase_success_inv _ _ _ _ _ Hrun)
    as (item & (_ & _ & _ & Hp) & Hchange & -> & _).
  simpl.
  destruct (change_breakdown_total denoms (cash - price item) Hpos ltac:(lia))
    as (Hloop & Hbreak & Htotal).
  assert (mod_chain denoms (cash - price item) = 0) as Hzero.
  { destruct (decide (0 < cash - price item)) as [Hlt|Hle].
    - rewrite can_make_change_positive, is_valid_positive in Hchange by done.
      injection Hchange as Hchange. by apply bool_decide_eq_true_1 in Hchange.
    - assert (cash - price item = 0) as -> by lia.
      unfold mod_chain. apply foldl_mod_zero. }
  rewrite Hzero in Hloop, Htotal.
  eexists. split_and!; [exact Hbreak | exact Hloop |].
  intros pairs Hpairs. apply keyed_inj in Hpairs as ->. lia.
Qed.

Lemma purchase_change_breaks_down_exactly_witness :
  ∃ res,
    change_breakdown [1; 2; 5; 10] 5 = Ok (mkBreakdown 5 res) ∧
    breakdown_loop (sorted_reverse [1; 2; 5; 10]) [] 5 = Ok (res, 0).
Proof.
  destruct (purchase_change_breaks_down_exactly [1; 2; 5; 10] "cola" 15
              (demo_session 10 1)
              (mkPurchaseResult "Cola" 10 15 5 0 "Purchase successful")
              demo_positive) as (res & Hbreak & Hloop & _).
  - vm_compute; reflexivity.
  - exists res. split; [exact Hbreak | exact Hloop].
Defined.

Lemma store_after_purchase_commute (id1 id2 : string) (item1 item2 : Item)
    (w : Store) :
  id1 ≠ id2 →
  store_after_purchase id2 item2 (store_after_purchase id1 item1 w)
  = store_after_purchase id1 item1 (store_after_purchase id2 item2 w).
Proof.
  intros Hne. unfold store_after_purchase. simpl. f_equal.
  - by apply insert_insert_ne.
  - destruct (slot_id item1) as [sid1|], (slot_id item2) as [sid2|]; try done.
    destruct (decide (sid1 = sid2)) as [->|Hsid]; [done |].
    apply alter_alter_ne. congruence.
Qed.

(** X17: purchases of two different items do not interfere: when each
    succeeds from a session, each also succeeds after the other with the
    same record, and the two orders end in the same session. *)
Theorem purchases_of_distinct_items_commute (denoms : list Z)
    (id1 id2 : string) (cash1 cash2 : Z) (s : Session)
    (r1 r2 : PurchaseResult) :
  id1 ≠ id2 →
  (purchase denoms id1 cash1 s).1 = Ok r1 →
  (purchase denoms id2 cash2 s).1 = Ok r2 →
  (purchase denoms id2 cash2 (purchase denoms id1 cash1 s).2).1 = Ok r2 ∧
  (purchase denoms id1 cash1 (purchase denoms id2 cash2 s).2).1 = Ok r1 ∧
  (purchase denoms id2 cash2 (purchase denoms id1 cash1 s).2).2
  = (purchase denoms id1 cash1 (purchase denoms id2 cash2 s).2).2.
Proof.
  intros Hne Hrun1 Hrun2.
  destruct (purchase_success_inv _ _ _ _ _ Hrun1)
    as (item1 & (Hvalid1 & Hitem1 & Hq1 & Hp1) & Hchange1 & -> & ->).
  destruct (purchase_success_inv _ _ _ _ _ Hrun2)
    as (item2 & (Hvalid2 & Hitem2 & Hq2 & Hp2) & Hchange2 & -> & ->).
  rewrite (purchase_success denoms id2 cash2 _ item2);
    [| unfold passes_steps_1_to_3; cbn [working store_after_purchase items];
       rewrite lookup_insert_ne by done; done
     | done].
  rewrite (purchase_success denoms id1 cash1 _ item1);
    [| unfold passes_steps_1_to_3; cbn [working store_after_purchase items];
       rewrite lookup_insert_ne by done; done
     | done].
  cbn [fst snd working].
  split_and!; [done | done |].
  by rewrite (store_after_purchase_commute id1 id2).
Qed.

Lemma purchases_of_distinct_items_commute_witness :
  (purchase [1; 2; 5; 10] "water" 5
     (purchase [1; 2; 5; 10] "cola" 15 shared_slot_session).2).2
  = (purchase [1; 2; 5; 10] "cola" 15
       (purchase [1; 2; 5; 10] "water" 5 shared_slot_session).2).2.
Proof.
  refine (proj2 (proj2 (purchases_of_distinct_items_commute [1; 2; 5; 10]
                          "cola" "water" 15 5 shared_slot_session
                          (mkPurchaseResult "Cola" 10 15 5 1 "Purchase successful")
                          (mkPurchaseResult "Water" 5 5 0 2 "Purchase successful")
                          _ _ _))).
  - discriminate.
  - vm_compute; reflexivity.
  - vm_compute; reflexivity.
Defined.
